(** * Either.ts: a two-variant tagged union and its combinators

    A shallow embedding of [src/Either.ts] (constructors [left] and [right],
    type guards [isLeft] and [isRight], the eliminator [fold] and the functor
    action [map]) together with the laws the library is expected to satisfy.

    The functions the caller hands to [fold] and [map] are ordinary
    JavaScript closures: they may read and write state of their own and they
    may throw.  They are therefore modelled as computations in a small
    state-and-exception monad [Eff]; the combinators thread that monad
    exactly where the source performs a call. *)

From Stdlib Require Import String List Bool.
Import ListNotations.
Local Open Scope string_scope.

Set Implicit Arguments.

(* ===================================================================== *)
(** ** Caller-supplied functions: state and exceptions *)
(* ===================================================================== *)

Module Effects.

Section Monad.
(** [W] is whatever state the caller's closures can observe and change,
    [X] the type of the values they can throw.  Neither is inspected by
    the library. *)
Variables (W X : Type).

Inductive Completion (A : Type) : Type :=
  | Normal (a : A)
  | Throw (x : X).

Definition Eff (A : Type) : Type := W -> Completion A * W.

Definition ret {A} (a : A) : Eff A := fun w => (Normal a, w).

Definition bind {A B} (c : Eff A) (k : A -> Eff B) : Eff B :=
  fun w =>
    match c w with
    | (Normal a, w') => k a w'
    | (Throw _ x, w') => (Throw B x, w')
    end.

(** A function without effects, seen as a caller-supplied function. *)
Definition pure {A B} (f : A -> B) : A -> Eff B := fun a => ret (f a).

(** The body of [f] completes normally on every argument, in every state. *)
Definition never_throws {A B} (f : A -> Eff B) : Prop :=
  forall a w, exists b w', f a w = (Normal b, w').

(** The computation [c] completes normally in every state. *)
Definition returns {A} (c : Eff A) : Prop :=
  forall w, exists a w', c w = (Normal a, w').
End Monad.

Arguments Normal {X A} a.
Arguments Throw {X A} x.
Arguments ret {W X A} a _.
Arguments pure {W X A B} f a _.

Declare Scope eff_scope.
Delimit Scope eff_scope with eff.
Notation "x <- c ;; k" := (bind c (fun x => k))
  (at level 61, c at next level, right associativity) : eff_scope.

(** *** Call spies

    A spy wraps a function so that each invocation appends the spy's name to
    a call log kept next to the caller's own state; the wrapped body runs on
    the caller's state and cannot touch the log. *)
Section Spy.
Variables (W X : Type).

Definition Log : Type := list string.

Definition spy {A B} (name : string) (f : A -> Eff W X B)
  : A -> Eff (Log * W) X B :=
  fun a s =>
    let (c, w') := f a (snd s) in (c, ((fst s ++ [name])%list, w')).
End Spy.

End Effects.

(* ===================================================================== *)
(** ** The data type and its combinators *)
(* ===================================================================== *)

Module EitherTs.
Import Effects.
Local Open Scope eff_scope.

(** [type Either<L, R> = Left<L> | Right<R>]: each variant is an object with
    a [value] field; the [_tag] field is fixed by the variant. *)
Inductive Either (L R : Type) : Type :=
| Left (value : L)
| Right (value : R).

Arguments Left {L R} value.
Arguments Right {L R} value.

Section Combinators.
Variables (L R : Type).

(** The discriminant property [e._tag]. *)
Definition _tag (e : Either L R) : string :=
  match e with
  | Left _ => "Left"
  | Right _ => "Right"
  end.

Definition left (value : L) : Either L R := Left value.

Definition right (value : R) : Either L R := Right value.

(** [e._tag === 'Left'] *)
Definition isLeft (e : Either L R) : bool := String.eqb (_tag e) "Left".

(** [e._tag === 'Right'] *)
Definition isRight (e : Either L R) : bool := String.eqb (_tag e) "Right".
End Combinators.

Arguments left {L R} value.
Arguments right {L R} value.

(** *** Narrowing

    [isLeft] and [isRight] are type guards ([e is Left<L>], [e is Right<R>]),
    and so is a [case] of a [switch] on [e._tag]: where the test succeeded
    the source reads [e.value] at the payload type of that variant.  Where
    [isRight] answered [false] the value is known to be a [Left<L>], which
    belongs to [Either<L, R2>] for every [R2]; where both tests failed no
    variant is left ([never]). *)
Section Narrowing.
Variables (L R : Type).

Definition value_of_Left (e : Either L R) : isLeft e = true -> L :=
  match e as e0 return isLeft e0 = true -> L with
  | Left l => fun _ => l
  | Right _ => fun H => False_rect L (Bool.diff_false_true H)
  end.

Definition value_of_Right (e : Either L R) : isRight e = true -> R :=
  match e as e0 return isRight e0 = true -> R with
  | Right r => fun _ => r
  | Left _ => fun H => False_rect R (Bool.diff_false_true H)
  end.

Definition retyped (R2 : Type) (e : Either L R)
  : isRight e = false -> Either L R2 :=
  match e as e0 return isRight e0 = false -> Either L R2 with
  | Left l => fun _ => Left l
  | Right _ => fun H => False_rect (Either L R2) (Bool.diff_true_false H)
  end.

Definition never (e : Either L R)
  : isLeft e = false -> isRight e = false -> False :=
  match e as e0 return isLeft e0 = false -> isRight e0 = false -> False with
  | Left _ => fun H _ => Bool.diff_true_false H
  | Right _ => fun _ H => Bool.diff_true_false H
  end.
End Narrowing.

Section Calls.
Variables (W X : Type).
Variables (L R : Type).

(** [switch (e._tag) {
       case 'Left': return onLeft(e.value);
       case 'Right': return onRight(e.value);
     }]
    The cases are tried in order; past the last one the function body
    ends, which the type of [e] rules out. *)
Definition fold {T} (onLeft : L -> Eff W X T) (onRight : R -> Eff W X T)
  (e : Either L R) : Eff W X T :=
  match String.eqb (_tag e) "Left" as b
        return isLeft e = b -> Eff W X T with
  | true => fun HL => onLeft (value_of_Left e HL)
  | false => fun HL =>
      match String.eqb (_tag e) "Right" as b
            return isRight e = b -> Eff W X T with
      | true => fun HR => onRight (value_of_Right e HR)
      | false => fun HR => False_rect (Eff W X T) (never e HL HR)
      end eq_refl
  end eq_refl.

(** [isRight(e) ? right(f(e.value)) : e] *)
Definition map {R2} (f : R -> Eff W X R2) (e : Either L R)
  : Eff W X (Either L R2) :=
  match isRight e as b return isRight e = b -> Eff W X (Either L R2) with
  | true => fun H => r <- f (value_of_Right e H) ;; ret (right r)
  | false => fun H => ret (retyped R2 e H)
  end eq_refl.
End Calls.

(** *** Pipelines

    What a caller builds from [map]: a chain of successive calls,
    [map(fn)(... map(f2)(map(f1)(e)))], the functions listed in the order in
    which they are applied. *)
Section Pipelines.
Variables (W X : Type).
Variables (L R : Type).

Fixpoint map_chain (fs : list (R -> Eff W X R)) (e : Either L R)
  : Eff W X (Either L R) :=
  match fs with
  | [] => ret e
  | f :: fs' => e' <- map f e ;; map_chain fs' e'
  end.


(** Each function of a list of named functions under a spy of its name. *)
Definition spied (nfs : list (string * (R -> Eff W X R)))
  : list (R -> Eff (Log * W) X R) :=
  List.map (fun nf => spy (fst nf) (snd nf)) nfs.
End Pipelines.

(* ===================================================================== *)
(** ** Basic facts *)
(* ===================================================================== *)

Section Facts.
Variables (W X : Type).
Variables (L R : Type).

Lemma left_is_Left (v : L) : @left L R v = Left v.
Proof. reflexivity. Qed.

Lemma right_is_Right (v : R) : @right L R v = Right v.
Proof. reflexivity. Qed.

(** The guards decide the variant. *)
Lemma isLeft_inv (e : Either L R) :
  isLeft e = true -> exists l, e = left l.
Proof.
  destruct e as [l | r]; intro H.
  - now exists l.
  - discriminate H.
Qed.

Lemma isRight_inv (e : Either L R) :
  isRight e = true -> exists r, e = right r.
Proof.
  destruct e as [l | r]; intro H.
  - discriminate H.
  - now exists r.
Qed.

Lemma tag_cases (e : Either L R) : _tag e = "Left" \/ _tag e = "Right".
Proof. destruct e; [left | right]; reflexivity. Qed.

(** Unfolding equations of [fold] and [map], one per variant. *)
Lemma fold_Left T (onLeft : L -> Eff W X T) (onRight : R -> Eff W X T) l :
  fold onLeft onRight (Left l) = onLeft l.
Proof. reflexivity. Qed.

Lemma fold_Right T (onLeft : L -> Eff W X T) (onRight : R -> Eff W X T) r :
  fold onLeft onRight (Right r) = onRight r.
Proof. reflexivity. Qed.

Lemma map_Left R2 (f : R -> Eff W X R2) (l : L) :
  map f (Left l) = ret (Left l).
Proof. reflexivity. Qed.

Lemma map_Right R2 (f : R -> Eff W X R2) (r : R) :
  map (L:=L) f (Right r) = (r' <- f r ;; ret (right r')).
Proof. reflexivity. Qed.

(** Running a spied function: same completion, same final state, one
    more entry in the log. *)
Lemma spy_run A B name (f : A -> Eff W X B) a log w :
  spy name f a (log, w)
  = (fst (f a w), ((log ++ [name])%list, snd (f a w))).
Proof.
  unfold spy; simpl. now destruct (f a w).
Qed.


Lemma bind_ret_r A (c : Eff W X A) w : (x <- c ;; ret x) w = c w.
Proof. unfold bind. now destruct (c w) as [[a | x] w']. Qed.

Lemma bind_assoc A B C (c : Eff W X A) (k : A -> Eff W X B)
      (h : B -> Eff W X C) w :
  (y <- (x <- c ;; k x) ;; h y) w = (x <- c ;; y <- k x ;; h y) w.
Proof. unfold bind. now destruct (c w) as [[a | x] w']. Qed.

Lemma pure_never_throws A B (f : A -> B) : never_throws (W:=W) (X:=X) (pure f).
Proof. intros a w. exists (f a), w. reflexivity. Qed.
End Facts.

Create Rewrite HintDb either.
#[export] Hint Rewrite fold_Left fold_Right map_Left map_Right : either.

(** Case analysis on an [Either], then the unfolding equations. *)
Ltac by_variant e :=
  destruct e as [?l | ?r]; autorewrite with either; try reflexivity.

(* ===================================================================== *)
(** ** Scenarios *)
(* ===================================================================== *)

Example fold_err_bad : forall w : unit,
  fold (X:=unit) (pure (fun e => "err:" ++ e))
       (pure (fun n => "ok:" ++ n))
       (left "bad") w
  = (Normal "err:bad", w).
Proof. reflexivity. Qed.

Example map_double_right : forall w : unit,
  map (X:=unit) (L:=string) (pure (fun n => n * 2)) (right 5) w
  = (Normal (right 10), w).
Proof. reflexivity. Qed.

Example map_double_left_spied :
  map (X:=unit) (spy "double" (pure (fun n => n * 2))) (left "fail") ([], tt)
  = (Normal (left "fail"), ([], tt)).
Proof. reflexivity. Qed.

Example map_double_right_spied :
  map (X:=unit) (L:=string) (spy "double" (pure (fun n => n * 2))) (right 5)
      ([], tt)
  = (Normal (right 10), (["double"], tt)).
Proof. reflexivity. Qed.

(** A function that throws is still called, and its exception is passed
    on, not caught. *)
Example map_passes_exception_on :
  map (L:=string) (R2:=nat)
      (spy "boom" (fun (n : nat) (w : unit) => (Throw "boom", w))) (right 5)
      ([], tt)
  = (Throw "boom", (["boom"], tt)).
Proof. reflexivity. Qed.

Example guards_ignore_payload :
  isLeft (@left (option nat) nat None) = true
  /\ isRight (@right nat (option nat) None) = true.
Proof. split; reflexivity. Qed.

(* ===================================================================== *)
(** ** Constructors and guards *)
(* ===================================================================== *)

(** C5. For every value [v], whatever its type (so also a null or undefined
    payload): [isLeft (left v)] is true and [isRight (left v)] is false;
    [isRight (right v)] is true and [isLeft (right v)] is false. *)
Theorem guards_of_constructors :
  forall (L R : Type) (l : L) (r : R),
    isLeft (@left L R l) = true /\ isRight (@left L R l) = false /\
    isRight (@right L R r) = true /\ isLeft (@right L R r) = false.
Proof. intros L R l r. repeat split. Qed.

(** C6. For every [e], exactly one of [isLeft e] and [isRight e] is true,
    and [isRight e] is the negation of [isLeft e]. *)
Theorem guards_exclusive :
  forall (L R : Type) (e : Either L R),
    xorb (isLeft e) (isRight e) = true /\ isRight e = negb (isLeft e).
Proof. intros L R [l | r]; split; reflexivity. Qed.

(* ===================================================================== *)
(** ** The eliminator *)
(* ===================================================================== *)

Section Fold.
Variables (W X : Type).
Variables (L R T : Type).
Implicit Types (onLeft : L -> Eff W X T) (onRight : R -> Eff W X T).

(** C3. [fold onLeft onRight (left v)] is [onLeft v]: same completion and
    same final state.  [onRight] is not invoked: replacing it by any other
    handler changes nothing, and a spy on it records no call while the spy
    on [onLeft] records exactly one. *)
Theorem fold_left_runs_onLeft :
  forall onLeft onRight (v : L),
    fold onLeft onRight (left v) = onLeft v
    /\ (forall onRight', fold onLeft onRight (left v)
                         = fold onLeft onRight' (left v))
    /\ (forall log w,
          fold (spy "onLeft" onLeft) (spy "onRight" onRight) (left v) (log, w)
          = (fst (onLeft v w), ((log ++ ["onLeft"])%list, snd (onLeft v w)))).
Proof.
  intros onLeft onRight v. split; [ | split ].
  - apply fold_Left.
  - intros onRight'. now rewrite !left_is_Left, !fold_Left.
  - intros log w. rewrite left_is_Left, fold_Left. apply spy_run.
Qed.

(** C4. [fold onLeft onRight (right v)] is [onRight v] and [onLeft] is not
    invoked; on every [e] exactly one handler is called, exactly once:
    [onLeft] when [e] is a Left, [onRight] otherwise. *)
Theorem fold_right_runs_onRight :
  forall onLeft onRight,
    (forall v : R,
        fold onLeft onRight (right v) = onRight v
        /\ (forall onLeft', fold onLeft onRight (right v)
                            = fold onLeft' onRight (right v))
        /\ (forall log w,
              fold (spy "onLeft" onLeft) (spy "onRight" onRight) (right v)
                   (log, w)
              = (fst (onRight v w),
                 ((log ++ ["onRight"])%list, snd (onRight v w)))))
    /\ (forall (e : Either L R) log w,
          fst (snd (fold (spy "onLeft" onLeft) (spy "onRight" onRight) e
                         (log, w)))
          = (log ++ [if isLeft e then "onLeft" else "onRight"])%list).
Proof.
  intros onLeft onRight. split.
  - intros v. repeat split.
    intros log w. rewrite right_is_Right, fold_Right. apply spy_run.
  - intros e log w. destruct e as [l | r].
    + rewrite fold_Left, spy_run. reflexivity.
    + rewrite fold_Right, spy_run. reflexivity.
Qed.
End Fold.

(** C10. Folding with the two constructors gives the value back: [fold] loses
    no information. *)
Theorem fold_constructors :
  forall (W X L R : Type) (e : Either L R),
    fold (W:=W) (X:=X) (pure left) (pure right) e = ret e.
Proof. intros W X L R e. case e; intros; reflexivity. Qed.

(* ===================================================================== *)
(** ** The functor action *)
(* ===================================================================== *)

Section Map.
Variables (W X : Type).
Variables (L R R2 : Type).
Implicit Types (f g : R -> Eff W X R2).

(** C1. [map f (left v)] returns [left v], payload unchanged, in the state
    it started in, and [f] is not invoked: a spy on [f] records no call,
    and on every Left-tagged [e] the outcome of [map f e] does not depend
    on [f]. *)
Theorem map_left_short_circuit :
  forall f,
    (forall v : L,
        map f (left v) = ret (left v)
        /\ (forall log w,
              map (spy "f" f) (left v) (log, w)
              = (Normal (left v), (log, w))))
    /\ (forall g (e : Either L R), isLeft e = true -> map f e = map g e).
Proof.
  intros f. split.
  - intros v. split.
    + apply map_Left.
    + intros log w. now rewrite left_is_Left, map_Left.
  - intros g e He. apply isLeft_inv in He as [l ->].
    now rewrite left_is_Left, !map_Left.
Qed.

(** C2. [map f (right v)] calls [f] on [v], once, and wraps what it
    returns as a Right; if [f] throws, so does [map].  For a function
    without effects this reads [map f (right v) = right (f v)]. *)
Theorem map_right_applies :
  forall (v : R),
    (forall (h : R -> R2),
        map (W:=W) (X:=X) (L:=L) (pure h) (right v) = ret (right (h v)))
    /\ (forall f w,
          map (L:=L) f (right v) w
          = match f v w with
            | (Normal r, w') => (Normal (right r), w')
            | (Throw x, w') => (Throw x, w')
            end)
    /\ (forall f log w,
          snd (map (L:=L) (spy "f" f) (right v) (log, w))
          = ((log ++ ["f"])%list, snd (f v w))).
Proof.
  intros v. split; [ | split ].
  - intros h. reflexivity.
  - intros f w. rewrite right_is_Right, map_Right. unfold bind.
    destruct (f v w) as [[r | x] w']; reflexivity.
  - intros f log w. rewrite right_is_Right, map_Right. unfold bind.
    rewrite spy_run. destruct (f v w) as [[r | x] w']; reflexivity.
Qed.
End Map.

Lemma map_left_short_circuit_witness :
  isLeft (@left string nat "fail") = true
  /\ map (W:=unit) (X:=unit) (pure (fun n => n * 2)) (left "fail")
     = map (pure (fun n => n + 1)) (left "fail").
Proof.
  split.
  - reflexivity.
  - apply (proj2 (@map_left_short_circuit unit unit string nat nat
                     (pure (fun n => n * 2)))).
    reflexivity.
Defined.

(** C7. Functor identity: mapping the identity function over [e] returns a
    value with the tag and the payload of [e]. *)
Theorem map_identity :
  forall (W X L R : Type) (e : Either L R),
    map (W:=W) (X:=X) (pure (fun x => x)) e = ret e.
Proof. intros W X L R e. by_variant e. Qed.

(** C8. Functor composition: running [map f] and then [map g] is running
    [map] of the composite [fun x => g (f x)], for functions with effects
    (same completion, same final state) and so for functions without. *)
Theorem map_composition :
  forall (W X L R R2 R3 : Type),
    (forall (f : R -> Eff W X R2) (g : R2 -> Eff W X R3) (e : Either L R) w,
        (e' <- map f e ;; map g e') w
        = map (fun x => y <- f x ;; g y) e w)
    /\ (forall (f : R -> R2) (g : R2 -> R3) (e : Either L R),
          (e' <- map (W:=W) (X:=X) (pure f) e ;; map (pure g) e')
          = map (pure (fun x => g (f x))) e).
Proof.
  intros W X L R R2 R3. split.
  - intros f g e w. destruct e as [l | r].
    + reflexivity.
    + rewrite !map_Right, !bind_assoc. reflexivity.
  - intros f g e. destruct e as [l | r]; reflexivity.
Qed.

(* ===================================================================== *)
(** ** Totality *)
(* ===================================================================== *)

(** C9. If the functions supplied by the caller never throw, no combinator
    does: [fold] and [map] complete normally on every [e], in every state;
    the constructors and the guards call nothing and complete normally.
    The two cases of the [switch] in [fold] cover every value. *)
Theorem combinators_total :
  forall (W X L R T R2 : Type)
         (onLeft : L -> Eff W X T) (onRight : R -> Eff W X T)
         (f : R -> Eff W X R2),
    never_throws onLeft -> never_throws onRight -> never_throws f ->
    forall e : Either L R,
      returns (fold onLeft onRight e)
      /\ returns (map f e)
      /\ (_tag e = "Left" \/ _tag e = "Right")
      /\ never_throws (W:=W) (X:=X) (pure (@left L R))
      /\ never_throws (W:=W) (X:=X) (pure (@right L R))
      /\ never_throws (W:=W) (X:=X) (pure (@isLeft L R))
      /\ never_throws (W:=W) (X:=X) (pure (@isRight L R)).
Proof.
  intros W X L R T R2 onLeft onRight f HL HR Hf e.
  repeat match goal with |- _ /\ _ => split end;
    try apply pure_never_throws; try apply tag_cases.
  - destruct e as [l | r]; intros w.
    + rewrite fold_Left. apply HL.
    + rewrite fold_Right. apply HR.
  - destruct e as [l | r]; intros w.
    + rewrite map_Left. now exists (Left l), w.
    + rewrite map_Right. unfold bind.
      destruct (Hf r w) as (r2 & w' & ->). now exists (right r2), w'.
Qed.

Lemma combinators_total_witness :
  never_throws (W:=nat) (X:=unit) (pure (fun e => "err:" ++ e))
  /\ never_throws (W:=nat) (X:=unit) (pure (fun n : nat => "ok"))
  /\ never_throws (X:=unit) (fun n calls => (Normal (n * 2), S calls))
  /\ returns (fold (W:=nat) (X:=unit)
                (pure (fun e => "err:" ++ e)) (pure (fun n : nat => "ok"))
                (right 5))
  /\ returns (map (X:=unit) (L:=string)
                (fun n calls => (Normal (n * 2), S calls)) (right 5)).
Proof.
  assert (HL : never_throws (W:=nat) (X:=unit) (pure (fun e => "err:" ++ e)))
    by (intros a w; do 2 eexists; reflexivity).
  assert (HR : never_throws (W:=nat) (X:=unit) (pure (fun n : nat => "ok")))
    by (intros a w; do 2 eexists; reflexivity).
  assert (Hf : never_throws (X:=unit)
                 (fun n calls => (Normal (n * 2), S calls)))
    by (intros a w; do 2 eexists; reflexivity).
  split; [ exact HL | split; [ exact HR | split; [ exact Hf | ] ] ].
  split; apply (@combinators_total nat unit string nat string nat
                  _ _ _ HL HR Hf (right 5)).
Defined.

(* ===================================================================== *)
(** ** Further properties of the combinators *)
(* ===================================================================== *)

Section MoreFacts.
Variables (W X : Type).
Variables (L R : Type).



End MoreFacts.

Section Variant.
Variables (W X : Type).
Variables (L R R2 : Type).
Implicit Types (f : R -> Eff W X R2).

(** X1. [map] never changes the variant: whenever [map f e] returns, the
    result carries the tag of [e], so both guards answer on it as they did
    on [e]. *)
Theorem map_keeps_variant :
  forall f (e : Either L R) w e' w',
    map f e w = (Normal e', w') ->
    _tag e' = _tag e /\ isLeft e' = isLeft e /\ isRight e' = isRight e.
Proof.
  intros f e w e' w' Hrun. destruct e as [l | r].
  - rewrite map_Left in Hrun. injection Hrun as <- _. now repeat split.
  - rewrite map_Right in Hrun. unfold bind in Hrun.
    destruct (f r w) as [[r2 | x] w1]; [ | discriminate Hrun ].
    injection Hrun as <- _. now repeat split.
Qed.

(** X2. [map] throws exactly when it is given a Right and [f] throws on
    its payload; the exception and the state [f] left behind reach the
    caller as they are ([map] catches nothing and raises nothing). *)
Theorem map_throws_only_from_f :
  forall f (e : Either L R) w x w',
    map f e w = (Throw x, w')
    <-> exists r, e = right r /\ f r w = (Throw x, w').
Proof.
  intros f e w x w'. split.
  - destruct e as [l | r].
    + rewrite map_Left. discriminate.
    + rewrite map_Right. unfold bind. intros Hrun. exists r. split; [ easy | ].
      destruct (f r w) as [[r2 | y] w1]; [ discriminate Hrun | ].
      now injection Hrun as -> ->.
  - intros (r & -> & Hf). rewrite right_is_Right, map_Right.
    unfold bind. now rewrite Hf.
Qed.

(** X9. Mapping an injective function without effects loses nothing: two
    values with the same image under [map] are equal. *)
Theorem map_injective :
  forall (h : R -> R2),
    (forall a b, h a = h b -> a = b) ->
    forall (e1 e2 : Either L R) (w : W),
      map (X:=X) (pure h) e1 w = map (pure h) e2 w -> e1 = e2.
Proof.
  intros h Hinj [l1 | r1] [l2 | r2] w Heq; cbv in Heq;
    try discriminate Heq.
  - now injection Heq as ->.
  - injection Heq as Hh. f_equal. now apply Hinj.
Qed.
End Variant.

Lemma map_keeps_variant_witness :
  map (W:=unit) (X:=unit) (L:=string) (pure (fun n => n * 2)) (right 5) tt
  = (Normal (right 10), tt)
  /\ _tag (@right string nat 10) = _tag (@right string nat 5).
Proof.
  split.
  - reflexivity.
  - apply (@map_keeps_variant unit unit string nat nat
             (pure (fun n => n * 2)) (right 5) tt (right 10) tt).
    reflexivity.
Defined.

Lemma map_injective_witness :
  (forall a b : nat, S a = S b -> a = b)
  /\ @right string nat 5 = right 5.
Proof.
  assert (HS : forall a b : nat, S a = S b -> a = b)
    by (intros a b H; injection H as H; exact H).
  split; [ exact HS | ].
  apply (@map_injective unit unit string nat nat S HS (right 5) (right 5) tt).
  reflexivity.
Defined.

(** X6. The guards are sound and complete for the variant: [isLeft e]
    answers true exactly on the values built by [left], [isRight e] exactly
    on those built by [right]. *)
Theorem guards_decide_variant :
  forall (L R : Type) (e : Either L R),
    (isLeft e = true <-> exists l, e = left l)
    /\ (isRight e = true <-> exists r, e = right r).
Proof.
  intros L R e. split; split.
  - apply isLeft_inv.
  - now intros [l ->].
  - apply isRight_inv.
  - now intros [r ->].
Qed.

Section Eliminator.
Variables (W X : Type).
Variables (L R T : Type).
Implicit Types (onLeft : L -> Eff W X T) (onRight : R -> Eff W X T).

(** X3. [map] is the instance of [fold] that rebuilds a Left as it is and
    wraps the image of a Right payload. *)
Theorem map_as_fold :
  forall (f : R -> Eff W X T) (e : Either L R),
    map f e = fold (pure left) (fun r => r' <- f r ;; ret (right r')) e.
Proof. intros f e. by_variant e. Qed.

(** X4. Folding the result of a [map] is folding the original value with
    [f] run in front of the Right handler; the Left handler sees the
    original payload. *)
Theorem fold_after_map :
  forall R0 (f : R0 -> Eff W X R) onLeft onRight (e : Either L R0) w,
    (e' <- map f e ;; fold onLeft onRight e') w
    = fold onLeft (fun r => y <- f r ;; onRight y) e w.
Proof.
  intros R0 f onLeft onRight e w. destruct e as [l | r].
  - reflexivity.
  - rewrite map_Right, bind_assoc, fold_Right. reflexivity.
Qed.

(** X5. [fold] is the only function with its two equations: whatever
    agrees with [onLeft] on every [left l] and with [onRight] on every
    [right r] is [fold onLeft onRight]. *)
Theorem fold_unique :
  forall onLeft onRight (h : Either L R -> Eff W X T),
    (forall l, h (left l) = onLeft l) ->
    (forall r, h (right r) = onRight r) ->
    forall e, h e = fold onLeft onRight e.
Proof.
  intros onLeft onRight h HL HR e. destruct e as [l | r].
  - rewrite fold_Left. apply HL.
  - rewrite fold_Right. apply HR.
Qed.
End Eliminator.

Lemma fold_unique_witness :
  (forall l : string,
      ret (W:=unit) (X:=unit) (isLeft (@left string nat l)) = pure (fun _ => true) l)
  /\ (forall r : nat,
        ret (W:=unit) (X:=unit) (isLeft (@right string nat r))
        = pure (fun _ => false) r)
  /\ ret (W:=unit) (X:=unit) (isLeft (@right string nat 5))
     = fold (pure (fun _ => true)) (pure (fun _ => false))
            (@right string nat 5).
Proof.
  split; [ reflexivity | split; [ reflexivity | ] ].
  apply (@fold_unique unit unit string nat bool
           (pure (fun _ => true)) (pure (fun _ => false))
           (fun e => ret (isLeft e))); reflexivity.
Defined.

(* ===================================================================== *)
(** ** Chains of [map] *)
(* ===================================================================== *)

Section Chains.
Variables (W X : Type).
Variables (L R : Type).
Implicit Types (fs : list (R -> Eff W X R)).



End Chains.


Example map_chain_stops_calling_after_throw :
  map_chain (L:=string)
    (spied [("double", pure (fun n => n * 2));
            ("boom", fun (n : nat) (w : unit) => (Throw "boom", w));
            ("succ", pure S)])
    (right 5) ([], tt)
  = (Throw "boom", (["double"; "boom"], tt)).
Proof. reflexivity. Qed.

End EitherTs.
